(** * The Margin strategy template, embedded in Rocq

    A shallow embedding of [margin_strategy_template/strategy_template.py]:
    the class [Strategy] with its three fields, and one definition per
    method.  A method is a computation over the instance ([self]) that
    can print, call back into the host, and raise; the calls and prints
    are recorded, in order, in a trace. *)

From Stdlib Require Import ZArith Floats.
From stdpp Require Import gmap strings list.

Set Warnings "-inexact-float".
Local Open Scope string_scope.

(** ** What the template uses of [margin_strategy_sdk]

    The SDK is imported by the template and is not part of the
    repository.  Each class below carries only the members the template
    names. *)

Module StrategyConfig.

Inductive flag : Set :=
| ORDER_BOOK
| TICKER
| PUBLIC_TRADE_HISTORY
| FUNDS.

#[global] Instance flag_eq_dec : EqDecision flag.
Proof. solve_decision. Defined.

Definition flag_code (f : flag) : nat :=
  match f with
  | ORDER_BOOK => 0
  | TICKER => 1
  | PUBLIC_TRADE_HISTORY => 2
  | FUNDS => 3
  end.

Definition flag_of_code (n : nat) : flag :=
  match n with
  | 0 => ORDER_BOOK
  | 1 => TICKER
  | 2 => PUBLIC_TRADE_HISTORY
  | _ => FUNDS
  end.

#[global] Instance flag_countable : Countable flag.
Proof.
  apply (inj_countable' flag_code flag_of_code).
  intros f. destruct f; reflexivity.
Defined.

(** An instance of the class: the one attribute the template assigns. *)
Record t : Type := { required_data_updates : gset flag }.

(** [StrategyConfig()] *)
Definition new : t := {| required_data_updates := ∅ |}.

(** [s.required_data_updates = v] *)
Definition set_required_data_updates (s : t) (v : gset flag) : t :=
  {| required_data_updates := v |}.

End StrategyConfig.

Module OrderUpdate.

Inductive status_t : Set :=
| FILLED
| ADAPTED
| CANCELED
| NO_CHANGE
| REAPPEARED
| DISAPPEARED
| PARTIALLY_FILLED
| ADAPTED_AND_FILLED
| OTHER_CHANGE.

#[global] Instance status_eq_dec : EqDecision status_t.
Proof. solve_decision. Defined.

(** The one attribute of an update the template reads. *)
Record t : Type := { status : status_t }.

End OrderUpdate.

Module ExitReason.

Inductive t : Set :=
| ERROR
| FINISHED_SUCCESSFULLY.

End ExitReason.

Module RoundingType.

Inductive t : Set :=
| ROUND.

End RoundingType.

(** The object [get_trading_capability_manager()] returns.  Amounts and
    prices are Python floats, that is IEEE 754 binary64 numbers. *)
Record TradingCapabilityManager : Type := {
  round_amount : float -> RoundingType.t -> float;
  get_min_buy_amount : float -> float;
  get_max_buy_amount : float -> float;
  is_order_valid : bool -> float -> float -> bool
}.

(** Two capability managers for concrete runs.  Both leave the amount as
    it is and allow amounts between 0.001 and 1; the second one rejects
    every order in [is_order_valid] all the same (as an exchange would an
    order whose price is off its tick size). *)
Definition tcm_accepting : TradingCapabilityManager :=
  {| round_amount := fun amount _ => amount;
     get_min_buy_amount := fun _ => 0.001%float;
     get_max_buy_amount := fun _ => 1%float;
     is_order_valid := fun _ _ _ => true |}.

Definition tcm_rejecting : TradingCapabilityManager :=
  {| round_amount := fun amount _ => amount;
     get_min_buy_amount := fun _ => 0.001%float;
     get_max_buy_amount := fun _ => 1%float;
     is_order_valid := fun _ _ _ => false |}.

(** A capability manager whose rounding does not produce a number. *)
Definition tcm_nan : TradingCapabilityManager :=
  {| round_amount := fun _ _ => nan;
     get_min_buy_amount := fun _ => 0.001%float;
     get_max_buy_amount := fun _ => 1%float;
     is_order_valid := fun _ _ _ => true |}.

(** ** Python values and comparisons *)

(** The values the two identifier fields and the identifier arguments
    take: [None] or an [int]. *)
Inductive pyval : Set :=
| PyNone
| PyInt (z : Z).

(** [a == b] *)
Definition py_eq (a b : pyval) : bool :=
  match a, b with
  | PyNone, PyNone => true
  | PyInt x, PyInt y => (x =? y)%Z
  | _, _ => false
  end.

(** [a <= b] and [a >= b] on floats; both are false when either side
    is a NaN. *)
Definition float_le (a b : float) : bool := PrimFloat.leb a b.
Definition float_ge (a b : float) : bool := PrimFloat.leb b a.

(** ** The instance *)

Record Strategy : Type := {
  waiting_order_id : pyval;
  waiting_cancel_order_id : pyval;
  strategy_state : gmap string string
}.

Inductive exn : Set :=
| AssertionError.

Inductive outcome (A : Type) : Type :=
| Return (a : A)
| Raise (e : exn).

Arguments Return {A} a.
Arguments Raise {A} e.

Section Template.

(** The market data and the order records are the host's; the template
    passes them around and never looks inside. *)
Context {OrderBook Ticker PublicTrade FundsEntry Order : Type}.

(** An argument of [print]. *)
Inductive printable : Type :=
| PStr (s : string)
| PStatus (st : OrderUpdate.status_t)
| PFunds (funds : gmap string FundsEntry).

(** What a method does that the host can observe: a [print], or a call
    to a service of [StrategyBase] or of the capability manager. *)
Inductive event : Type :=
| Printed (args : list printable)
| GetTradingCapabilityManager
| RoundAmount (amount : float) (rounding : RoundingType.t)
| GetMinBuyAmount (price : float)
| GetMaxBuyAmount (price : float)
| IsOrderValid (buy : bool) (amount price : float)
| PlaceLimitOrder (buy : bool) (amount price : float)
| CancelOrder (order_id : Z)
| Exit (reason : ExitReason.t) (message : option string).

(** One run of a method: how it ended, the instance afterwards, and
    what it did on the way. *)
Record run (A : Type) : Type := {
  result : outcome A;
  self : Strategy;
  trace : list event
}.

Arguments result {A} r.
Arguments self {A} r.
Arguments trace {A} r.

Definition M (A : Type) : Type := Strategy -> run A.

Definition ret {A : Type} (a : A) : M A :=
  fun s => {| result := Return a; self := s; trace := [] |}.

Definition bind {A B : Type} (c : M A) (k : A -> M B) : M B :=
  fun s =>
    let r := c s in
    match result r with
    | Return a =>
        let r' := k a (self r) in
        {| result := result r'; self := self r'; trace := trace r ++ trace r' |}
    | Raise e =>
        {| result := Raise e; self := self r; trace := trace r |}
    end.

Notation "x <- c ;; k" := (bind c (fun x => k))
  (at level 100, c at next level, right associativity).
Notation "c ;; k" := (bind c (fun _ => k))
  (at level 100, right associativity).

Definition get_self : M Strategy :=
  fun s => {| result := Return s; self := s; trace := [] |}.

Definition put_self (s' : Strategy) : M unit :=
  fun _ => {| result := Return tt; self := s'; trace := [] |}.

Definition emit (e : event) : M unit :=
  fun s => {| result := Return tt; self := s; trace := [e] |}.

Definition raise {A : Type} (e : exn) : M A :=
  fun s => {| result := Raise e; self := s; trace := [] |}.

Definition print (args : list printable) : M unit := emit (Printed args).

(** [assert(b)], with assertions enabled (the interpreter's default). *)
Definition py_assert (b : bool) : M unit :=
  if b then ret tt else raise AssertionError.

(** *** Host services *)

Variable host_tcm : TradingCapabilityManager.

Definition get_trading_capability_manager : M TradingCapabilityManager :=
  emit GetTradingCapabilityManager ;; ret host_tcm.

Definition tcm_round_amount (tcm : TradingCapabilityManager)
    (amount : float) (rounding : RoundingType.t) : M float :=
  emit (RoundAmount amount rounding) ;; ret (round_amount tcm amount rounding).

Definition tcm_get_min_buy_amount (tcm : TradingCapabilityManager)
    (price : float) : M float :=
  emit (GetMinBuyAmount price) ;; ret (get_min_buy_amount tcm price).

Definition tcm_get_max_buy_amount (tcm : TradingCapabilityManager)
    (price : float) : M float :=
  emit (GetMaxBuyAmount price) ;; ret (get_max_buy_amount tcm price).

Definition tcm_is_order_valid (tcm : TradingCapabilityManager)
    (buy : bool) (amount price : float) : M bool :=
  emit (IsOrderValid buy amount price) ;; ret (is_order_valid tcm buy amount price).

(** [self.exit(reason)] and [self.exit(reason, message)] *)
Definition exit (reason : ExitReason.t) (message : option string) : M unit :=
  emit (Exit reason message).

(** ** The methods of [Strategy] *)

Definition __init__ : Strategy :=
  {| waiting_order_id := PyInt 0;
     waiting_cancel_order_id := PyNone;
     strategy_state := ∅ |}.

Definition init : M unit :=
  print [PStr "Strategy init function!"].

Definition get_strategy_config : M StrategyConfig.t :=
  let s := StrategyConfig.new in
  let s := StrategyConfig.set_required_data_updates s
             {[ StrategyConfig.ORDER_BOOK;
                StrategyConfig.TICKER;
                StrategyConfig.PUBLIC_TRADE_HISTORY;
                StrategyConfig.FUNDS ]} in
  ret s.

Definition save_strategy_state : M (gmap string string) :=
  s <- get_self ;;
  ret (strategy_state s).

Definition restore_strategy_state (strategy_state : gmap string string) : M unit :=
  s <- get_self ;;
  put_self {| waiting_order_id := waiting_order_id s;
              waiting_cancel_order_id := waiting_cancel_order_id s;
              strategy_state := strategy_state |}.

Definition start : M unit :=
  print [PStr "Strategy start function!"] ;;
  print [PStr "placing order"] ;;
  tcm <- get_trading_capability_manager ;;
  let buy := true in
  let amount := 0.002%float in
  let price := 0.0001%float in
  amount <- tcm_round_amount tcm amount RoundingType.ROUND ;;
  lo <- tcm_get_min_buy_amount tcm price ;;
  py_assert (float_le lo amount) ;;
  hi <- tcm_get_max_buy_amount tcm price ;;
  py_assert (float_ge hi amount) ;;
  valid <- tcm_is_order_valid tcm buy amount price ;;
  py_assert valid.

Definition stop : M unit :=
  print [PStr "Strategy stop function!"].

Definition suspend : M unit :=
  print [PStr "Strategy suspend called"].

Definition unsuspend : M unit :=
  print [PStr "Strategy unsuspend called"].

Definition on_new_order_book (order_book : OrderBook) : M unit :=
  ret tt.

Definition on_new_ticker (ticker : Ticker) : M unit :=
  ret tt.

Definition on_new_public_trades (trades : list PublicTrade) : M unit :=
  ret tt.

Definition on_new_funds (funds : gmap string FundsEntry) : M unit :=
  print [PStr "Strategy funds function!"; PFunds funds].

Definition on_order_update (update : OrderUpdate.t) : M unit :=
  print [PStr "Order update status was: "; PStatus (OrderUpdate.status update)] ;;
  if decide (OrderUpdate.status update = OrderUpdate.FILLED) then ret tt
  else if decide (OrderUpdate.status update = OrderUpdate.ADAPTED) then ret tt
  else if decide (OrderUpdate.status update = OrderUpdate.CANCELED) then ret tt
  else if decide (OrderUpdate.status update = OrderUpdate.NO_CHANGE) then ret tt
  else if decide (OrderUpdate.status update = OrderUpdate.REAPPEARED) then ret tt
  else if decide (OrderUpdate.status update = OrderUpdate.DISAPPEARED) then ret tt
  else if decide (OrderUpdate.status update = OrderUpdate.PARTIALLY_FILLED) then ret tt
  else if decide (OrderUpdate.status update = OrderUpdate.ADAPTED_AND_FILLED) then ret tt
  else if decide (OrderUpdate.status update = OrderUpdate.OTHER_CHANGE) then ret tt
  else ret tt.

Definition on_place_order_success (place_order_id : Z) (order : Order) : M unit :=
  print [PStr "Strategy place order success"] ;;
  s <- get_self ;;
  if py_eq (waiting_order_id s) (PyInt place_order_id)
  then print [PStr "Had waiting order id"]
  else print [PStr "Did not have waiting order id"].

Definition on_place_order_error_string (place_order_id : Z) (error : string) : M unit :=
  exit ExitReason.ERROR (Some error).

Definition on_cancel_order_success (order_id : Z) (canceled_order : Order) : M unit :=
  print [PStr "Strategy cancel order success"] ;;
  s <- get_self ;;
  if py_eq (waiting_cancel_order_id s) (PyInt order_id)
  then print [PStr "Had waiting cancel id"] ;;
       exit ExitReason.FINISHED_SUCCESSFULLY None
  else ret tt.

Definition on_cancel_order_error_string (order_id : Z) (error : string) : M unit :=
  exit ExitReason.ERROR (Some error).

(** ** The host driving the plugin

    The host calls one method at a time, with arguments of its choice.
    A call that raises leaves the instance as it was when the exception
    left the method. *)

Inductive call : Type :=
| Call_init
| Call_get_strategy_config
| Call_save_strategy_state
| Call_restore_strategy_state (strategy_state : gmap string string)
| Call_start
| Call_stop
| Call_suspend
| Call_unsuspend
| Call_on_new_order_book (order_book : OrderBook)
| Call_on_new_ticker (ticker : Ticker)
| Call_on_new_public_trades (trades : list PublicTrade)
| Call_on_new_funds (funds : gmap string FundsEntry)
| Call_on_order_update (update : OrderUpdate.t)
| Call_on_place_order_success (place_order_id : Z) (order : Order)
| Call_on_place_order_error_string (place_order_id : Z) (error : string)
| Call_on_cancel_order_success (order_id : Z) (canceled_order : Order)
| Call_on_cancel_order_error_string (order_id : Z) (error : string).

Definition invoke (c : call) : M unit :=
  match c with
  | Call_init => init
  | Call_get_strategy_config => _ <- get_strategy_config ;; ret tt
  | Call_save_strategy_state => _ <- save_strategy_state ;; ret tt
  | Call_restore_strategy_state m => restore_strategy_state m
  | Call_start => start
  | Call_stop => stop
  | Call_suspend => suspend
  | Call_unsuspend => unsuspend
  | Call_on_new_order_book ob => on_new_order_book ob
  | Call_on_new_ticker t => on_new_ticker t
  | Call_on_new_public_trades ts => on_new_public_trades ts
  | Call_on_new_funds f => on_new_funds f
  | Call_on_order_update u => on_order_update u
  | Call_on_place_order_success i o => on_place_order_success i o
  | Call_on_place_order_error_string i e => on_place_order_error_string i e
  | Call_on_cancel_order_success i o => on_cancel_order_success i o
  | Call_on_cancel_order_error_string i e => on_cancel_order_error_string i e
  end.

(** The instances the host can hold: the one [__init__] builds, and
    whatever a further call leaves behind. *)
Inductive reachable : Strategy -> Prop :=
| reachable_new : reachable __init__
| reachable_call (s : Strategy) (c : call) :
    reachable s -> reachable (self (invoke c s)).

(** The instance after a sequence of calls, oldest first. *)
Fixpoint after (cs : list call) (s : Strategy) : Strategy :=
  match cs with
  | [] => s
  | c :: cs' => after cs' (self (invoke c s))
  end.

(** The argument of the latest [restore_strategy_state] among the
    calls, oldest first, if there is one. *)
Fixpoint last_restored (cs : list call) : option (gmap string string) :=
  match cs with
  | [] => None
  | c :: cs' =>
      match last_restored cs' with
      | Some m => Some m
      | None =>
          match c with
          | Call_restore_strategy_state m => Some m
          | _ => None
          end
      end
  end.

(** *** Classifying what a method did *)

Definition is_exit (e : event) : bool :=
  match e with
  | Exit _ _ => true
  | _ => false
  end.

Definition is_order_service (e : event) : bool :=
  match e with
  | PlaceLimitOrder _ _ _ | CancelOrder _ => true
  | _ => false
  end.

(** What [start] does up to and including the call behind its first
    assertion. *)
Definition start_prefix (price : float) : list event :=
  [ Printed [PStr "Strategy start function!"];
    Printed [PStr "placing order"];
    GetTradingCapabilityManager;
    RoundAmount 0.002%float RoundingType.ROUND;
    GetMinBuyAmount price ].

(** A run that returned, left the instance alone, and neither ended the
    strategy nor touched an order. *)
Definition passive (s : Strategy) (r : run unit) : Prop :=
  result r = Return tt /\
  self r = s /\
  Forall (fun e => is_exit e = false /\ is_order_service e = false) (trace r).

(** * Properties *)

(** ** The laws of the method monad *)

Lemma bind_ret_l {A B : Type} (a : A) (k : A -> M B) (s : Strategy) :
  bind (ret a) k s = k a s.
Proof. unfold bind, ret. simpl. destruct (k a s); reflexivity. Qed.

Lemma bind_returns {A B : Type} (c : M A) (k : A -> M B) (s : Strategy) (a : A) :
  result (c s) = Return a ->
  bind c k s =
    {| result := result (k a (self (c s)));
       self := self (k a (self (c s)));
       trace := trace (c s) ++ trace (k a (self (c s))) |}.
Proof. intros H. unfold bind. rewrite H. reflexivity. Qed.

Lemma bind_raises {A B : Type} (c : M A) (k : A -> M B) (s : Strategy) (e : exn) :
  result (c s) = Raise e ->
  bind c k s = {| result := Raise e; self := self (c s); trace := trace (c s) |}.
Proof. intros H. unfold bind. rewrite H. reflexivity. Qed.

(** ** Saving and restoring *)

Lemma save_strategy_state_run (s : Strategy) :
  save_strategy_state s =
    {| result := Return (strategy_state s); self := s; trace := [] |}.
Proof. reflexivity. Qed.

Lemma restore_strategy_state_run (m : gmap string string) (s : Strategy) :
  restore_strategy_state m s =
    {| result := Return tt;
       self := {| waiting_order_id := waiting_order_id s;
                  waiting_cancel_order_id := waiting_cancel_order_id s;
                  strategy_state := m |};
       trace := [] |}.
Proof. reflexivity. Qed.

(** C1: on any instance and for any string-to-string mapping [m], saving,
    then restoring [m], then saving again returns [m] itself: same keys,
    same values, nothing added and nothing transformed. *)
Theorem save_restore_save_roundtrip (s : Strategy) (m : gmap string string) :
  result (bind save_strategy_state (fun _ =>
          bind (restore_strategy_state m) (fun _ =>
          save_strategy_state)) s) = Return m.
Proof.
  rewrite (bind_returns _ _ s (strategy_state s))
    by (rewrite save_strategy_state_run; reflexivity).
  cbn [result]. rewrite (save_strategy_state_run s). cbn [self].
  rewrite (bind_returns _ _ s tt)
    by (rewrite restore_strategy_state_run; reflexivity).
  cbn [result]. rewrite restore_strategy_state_run. cbn [self].
  rewrite save_strategy_state_run. reflexivity.
Qed.

(** Restoring what was just saved changes nothing. *)
Lemma restore_saved_is_identity (s : Strategy) (saved : gmap string string) :
  result (save_strategy_state s) = Return saved ->
  self (restore_strategy_state saved s) = s.
Proof.
  rewrite save_strategy_state_run. cbn [result]. intros [= <-].
  rewrite restore_strategy_state_run. destruct s; reflexivity.
Qed.

(** ** The configuration *)

Lemma get_strategy_config_run (s : Strategy) :
  get_strategy_config s =
    {| result := Return
         {| StrategyConfig.required_data_updates :=
              {[ StrategyConfig.ORDER_BOOK; StrategyConfig.TICKER;
                 StrategyConfig.PUBLIC_TRADE_HISTORY; StrategyConfig.FUNDS ]} |};
       self := s;
       trace := [] |}.
Proof. reflexivity. Qed.

(** C2: on every instance [get_strategy_config()] returns a configuration
    whose [required_data_updates] is exactly the set of the four flags
    ORDER_BOOK, TICKER, PUBLIC_TRADE_HISTORY and FUNDS: each of the four
    is a member, and the set has four elements. *)
Theorem get_strategy_config_flags (s : Strategy) :
  exists cfg : StrategyConfig.t,
    result (get_strategy_config s) = Return cfg /\
    StrategyConfig.required_data_updates cfg =
      {[ StrategyConfig.ORDER_BOOK; StrategyConfig.TICKER;
         StrategyConfig.PUBLIC_TRADE_HISTORY; StrategyConfig.FUNDS ]} /\
    (forall f : StrategyConfig.flag,
       f ∈ StrategyConfig.required_data_updates cfg <->
       f = StrategyConfig.ORDER_BOOK \/ f = StrategyConfig.TICKER \/
       f = StrategyConfig.PUBLIC_TRADE_HISTORY \/ f = StrategyConfig.FUNDS) /\
    size (StrategyConfig.required_data_updates cfg) = 4.
Proof.
  eexists. rewrite get_strategy_config_run. cbn [result].
  split; [reflexivity |]. cbn [StrategyConfig.required_data_updates].
  split; [reflexivity |]. split.
  - intros f. rewrite !elem_of_union, !elem_of_singleton. tauto.
  - vm_compute. reflexivity.
Qed.

(** ** The order-placement example in [start] *)

(** One run of [start], by the outcome of its assertions: the instance
    is never touched, and each assertion that fails ends the run before
    the next host call is made. *)
Lemma start_run (s : Strategy) :
  let price := 0.0001%float in
  let amount := round_amount host_tcm 0.002%float RoundingType.ROUND in
  let min_ok := float_le (get_min_buy_amount host_tcm price) amount in
  let max_ok := float_ge (get_max_buy_amount host_tcm price) amount in
  let valid := is_order_valid host_tcm true amount price in
  start s =
    {| result :=
         if min_ok && max_ok && valid then Return tt else Raise AssertionError;
       self := s;
       trace :=
         start_prefix price ++
         (if min_ok
          then GetMaxBuyAmount price ::
               (if max_ok then [IsOrderValid true amount price] else [])
          else []) |}.
Proof.
  intros price amount min_ok max_ok valid.
  subst min_ok max_ok valid amount price.
  cbv [start bind print emit ret py_assert raise
       get_trading_capability_manager tcm_round_amount
       tcm_get_min_buy_amount tcm_get_max_buy_amount tcm_is_order_valid
       result self trace app start_prefix].
  destruct (float_le _ _); [| reflexivity].
  destruct (float_ge _ _); [| reflexivity].
  destruct (is_order_valid _ _ _ _); reflexivity.
Qed.

(** C3, as the code has it: the example rounds the amount and makes
    three assertions on the rounded amount, the minimum buy amount, the
    maximum buy amount and [is_order_valid].  [start] raises
    [AssertionError] exactly when one of the three asserted conditions
    is false and returns normally exactly when all three hold; either
    way the instance is unchanged, no order is placed or cancelled and
    [exit] is not called. *)
Theorem start_aborts_iff_an_assertion_fails (s : Strategy) :
  let price := 0.0001%float in
  let amount := round_amount host_tcm 0.002%float RoundingType.ROUND in
  let min_ok := float_le (get_min_buy_amount host_tcm price) amount in
  let max_ok := float_ge (get_max_buy_amount host_tcm price) amount in
  let valid := is_order_valid host_tcm true amount price in
  (result (start s) = Raise AssertionError <->
     min_ok = false \/ max_ok = false \/ valid = false) /\
  (result (start s) = Return tt <->
     min_ok = true /\ max_ok = true /\ valid = true) /\
  self (start s) = s /\
  Forall (fun e => is_exit e = false /\ is_order_service e = false)
    (trace (start s)).
Proof.
  intros price amount min_ok max_ok valid.
  pose proof (start_run s) as R. cbv zeta in R.
  fold price amount min_ok max_ok valid in R. rewrite R.
  cbn [result self trace]. clear R.
  repeat split.
  - destruct min_ok, max_ok, valid; cbn; intros; try discriminate; tauto.
  - intros [H | [H | H]]; rewrite H; destruct min_ok, max_ok; reflexivity.
  - destruct min_ok, max_ok, valid; cbn; intros; try discriminate; reflexivity.
  - destruct min_ok, max_ok, valid; cbn; intros; try discriminate; reflexivity.
  - destruct min_ok, max_ok, valid; cbn; intros; try discriminate; reflexivity.
  - intros (-> & -> & ->). reflexivity.
  - destruct min_ok, max_ok; unfold start_prefix; cbn [app];
      repeat constructor.
Qed.

(** ** The asynchronous error callbacks *)

(** C4: on any instance, for any identifier and any error string [e],
    [on_place_order_error_string] and [on_cancel_order_error_string]
    each make exactly one host call, [exit(ExitReason.ERROR, e)], then
    return, leaving the instance unchanged. *)
Theorem error_callbacks_exit_with_error (s : Strategy) (id : Z) (e : string) :
  on_place_order_error_string id e s =
    {| result := Return tt; self := s;
       trace := [Exit ExitReason.ERROR (Some e)] |} /\
  on_cancel_order_error_string id e s =
    {| result := Return tt; self := s;
       trace := [Exit ExitReason.ERROR (Some e)] |}.
Proof. split; reflexivity. Qed.

(** ** What the calls leave of the instance *)

Lemma on_place_order_success_run (place_order_id : Z) (order : Order) (s : Strategy) :
  on_place_order_success place_order_id order s =
    {| result := Return tt;
       self := s;
       trace :=
         [ Printed [PStr "Strategy place order success"];
           Printed [PStr (if py_eq (waiting_order_id s) (PyInt place_order_id)
                        then "Had waiting order id"
                        else "Did not have waiting order id")] ] |}.
Proof.
  cbv [on_place_order_success bind print emit ret get_self result self trace app].
  destruct (py_eq _ _); reflexivity.
Qed.

Lemma on_cancel_order_success_run (order_id : Z) (canceled_order : Order) (s : Strategy) :
  on_cancel_order_success order_id canceled_order s =
    {| result := Return tt;
       self := s;
       trace :=
         Printed [PStr "Strategy cancel order success"] ::
         (if py_eq (waiting_cancel_order_id s) (PyInt order_id)
          then [ Printed [PStr "Had waiting cancel id"];
                 Exit ExitReason.FINISHED_SUCCESSFULLY None ]
          else []) |}.
Proof.
  cbv [on_cancel_order_success bind print emit ret get_self exit
       result self trace app].
  destruct (py_eq _ _); reflexivity.
Qed.

Lemma on_order_update_run (update : OrderUpdate.t) (s : Strategy) :
  on_order_update update s =
    {| result := Return tt;
       self := s;
       trace := [ Printed [PStr "Order update status was: ";
                         PStatus (OrderUpdate.status update)] ] |}.
Proof.
  destruct update as [st]. destruct st; reflexivity.
Qed.

(** The only call that changes the instance is
    [restore_strategy_state], and it changes [strategy_state] alone. *)
Lemma invoke_self (c : call) (s : Strategy) :
  self (invoke c s) =
    match c with
    | Call_restore_strategy_state m =>
        {| waiting_order_id := waiting_order_id s;
           waiting_cancel_order_id := waiting_cancel_order_id s;
           strategy_state := m |}
    | _ => s
    end.
Proof.
  destruct c; try reflexivity; cbn [invoke].
  - pose proof (start_run s) as R. cbv zeta in R. rewrite R. reflexivity.
  - rewrite on_order_update_run. reflexivity.
  - rewrite on_place_order_success_run. reflexivity.
  - rewrite on_cancel_order_success_run. reflexivity.
Qed.

Lemma invoke_keeps_ids (c : call) (s : Strategy) :
  waiting_order_id (self (invoke c s)) = waiting_order_id s /\
  waiting_cancel_order_id (self (invoke c s)) = waiting_cancel_order_id s.
Proof. rewrite invoke_self. destruct c; split; reflexivity. Qed.

(** In every reachable instance the two identifiers are as [__init__]
    set them. *)
Lemma reachable_ids (s : Strategy) :
  reachable s ->
  waiting_order_id s = PyInt 0 /\ waiting_cancel_order_id s = PyNone.
Proof.
  induction 1 as [| s c _ [IHo IHc]].
  - split; reflexivity.
  - destruct (invoke_keeps_ids c s) as [Ho Hc].
    rewrite Ho, Hc. split; assumption.
Qed.

Lemma reachable_after (cs : list call) (s : Strategy) :
  reachable s -> reachable (after cs s).
Proof.
  revert s. induction cs as [| c cs IH]; intros s H; cbn [after].
  - exact H.
  - apply IH. apply reachable_call. exact H.
Qed.

(** C5: any two instances reachable from construction by calls of the
    template's methods get the same value from [get_strategy_config()]:
    the result depends neither on the fields nor on the calls made
    before. *)
Theorem get_strategy_config_is_constant (s1 s2 : Strategy) :
  reachable s1 -> reachable s2 ->
  result (get_strategy_config s1) = result (get_strategy_config s2).
Proof.
  intros _ _. rewrite !get_strategy_config_run. reflexivity.
Qed.

(** C6: on any instance, [restore_strategy_state(m)] returns with
    [strategy_state] equal to [m] (a key is bound afterwards exactly as
    [m] binds it, whatever was stored before) and with
    [waiting_order_id] and [waiting_cancel_order_id] as they were. *)
Theorem restore_strategy_state_replaces_state (s : Strategy) (m : gmap string string) :
  result (restore_strategy_state m s) = Return tt /\
  strategy_state (self (restore_strategy_state m s)) = m /\
  (forall k : string,
     strategy_state (self (restore_strategy_state m s)) !! k = m !! k) /\
  waiting_order_id (self (restore_strategy_state m s)) = waiting_order_id s /\
  waiting_cancel_order_id (self (restore_strategy_state m s)) =
    waiting_cancel_order_id s.
Proof.
  rewrite restore_strategy_state_run.
  cbn [result self strategy_state waiting_order_id waiting_cancel_order_id].
  repeat split; reflexivity.
Qed.

(** C7: on the instance [__init__] builds, before any other call,
    [save_strategy_state()] returns the empty mapping. *)
Theorem save_strategy_state_fresh_is_empty :
  result (save_strategy_state __init__) = Return (∅ : gmap string string).
Proof.
  rewrite save_strategy_state_run. reflexivity.
Qed.

(** ** The data and event callbacks *)

(** C8: on any instance and for any argument, each of
    [on_new_order_book], [on_new_ticker], [on_new_public_trades],
    [on_new_funds] and [on_order_update] (whatever the status of the
    update) returns with the three fields unchanged, and calls neither
    [exit] nor [place_limit_order] nor [cancel_order]. *)
Theorem data_callbacks_are_passive
    (s : Strategy) (order_book : OrderBook) (ticker : Ticker)
    (trades : list PublicTrade) (funds : gmap string FundsEntry)
    (update : OrderUpdate.t) :
  passive s (on_new_order_book order_book s) /\
  passive s (on_new_ticker ticker s) /\
  passive s (on_new_public_trades trades s) /\
  passive s (on_new_funds funds s) /\
  passive s (on_order_update update s).
Proof.
  rewrite on_order_update_run.
  unfold passive; repeat split; cbn [trace on_new_order_book on_new_ticker
    on_new_public_trades on_new_funds print emit ret];
    repeat constructor.
Qed.

(** ** The identifiers the plugin waits for *)

(** C9: in every instance reachable from construction by calls of the
    template's methods, [waiting_cancel_order_id] is [None]; hence, for
    every integer [order_id], [on_cancel_order_success] prints its first
    line and returns without calling [exit]. *)
Theorem waiting_cancel_order_id_stays_None (s : Strategy) :
  reachable s ->
  waiting_cancel_order_id s = PyNone /\
  forall (order_id : Z) (canceled_order : Order),
    on_cancel_order_success order_id canceled_order s =
      {| result := Return tt; self := s;
         trace := [ Printed [PStr "Strategy cancel order success"] ] |} /\
    Forall (fun e => is_exit e = false)
      (trace (on_cancel_order_success order_id canceled_order s)).
Proof.
  intros H. destruct (reachable_ids s H) as [_ Hc].
  split; [exact Hc |].
  intros order_id canceled_order.
  rewrite on_cancel_order_success_run, Hc. cbn [py_eq trace].
  split; [reflexivity | repeat constructor].
Qed.

(** The branch is there: with an identifier stored in the field (as an
    adopter's code would), the matching success callback ends the
    strategy. *)
Lemma on_cancel_order_success_matched (n : Z) (canceled_order : Order) (s : Strategy) :
  waiting_cancel_order_id s = PyInt n ->
  trace (on_cancel_order_success n canceled_order s) =
    [ Printed [PStr "Strategy cancel order success"];
      Printed [PStr "Had waiting cancel id"];
      Exit ExitReason.FINISHED_SUCCESSFULLY None ].
Proof.
  intros H. rewrite on_cancel_order_success_run, H. cbn [py_eq trace].
  rewrite Z.eqb_refl. reflexivity.
Qed.

(** C10: [__init__] sets [waiting_order_id] to the integer 0, so on the
    instance it builds, with no order placed, the comparison in
    [on_place_order_success(0, order)] holds and the callback takes the
    branch that prints "Had waiting order id". *)
Theorem on_place_order_success_zero_matches_fresh (order : Order) :
  py_eq (waiting_order_id __init__) (PyInt 0) = true /\
  on_place_order_success 0 order __init__ =
    {| result := Return tt; self := __init__;
       trace := [ Printed [PStr "Strategy place order success"];
                  Printed [PStr "Had waiting order id"] ] |}.
Proof.
  split; [reflexivity |].
  rewrite on_place_order_success_run. reflexivity.
Qed.

(** Any other identifier takes the other branch on a fresh instance. *)
Lemma on_place_order_success_other_fresh (place_order_id : Z) (order : Order) :
  place_order_id <> 0%Z ->
  trace (on_place_order_success place_order_id order __init__) =
    [ Printed [PStr "Strategy place order success"];
      Printed [PStr "Did not have waiting order id"] ].
Proof.
  intros H. rewrite on_place_order_success_run.
  cbn [trace __init__ waiting_order_id py_eq].
  destruct (Z.eqb_spec 0 place_order_id) as [E | _]; [congruence | reflexivity].
Qed.

(** * Further properties of the methods *)

(** ** Comparisons at the edges *)

Lemma py_eq_int_true (v : pyval) (z : Z) :
  py_eq v (PyInt z) = true <-> v = PyInt z.
Proof.
  destruct v as [| x]; cbn [py_eq].
  - split; intros H; discriminate H.
  - rewrite Z.eqb_eq. split; intros H; [subst x; reflexivity | congruence].
Qed.

Lemma float_le_nan_r (x : float) : float_le x nan = false.
Proof.
  unfold float_le. rewrite leb_spec.
  change (Prim2SF nan) with S754_nan.
  destruct (Prim2SF x) as [| | | sg m e]; try reflexivity;
    destruct sg; reflexivity.
Qed.

Lemma float_le_nan_l (y : float) : float_le nan y = false.
Proof.
  unfold float_le. rewrite leb_spec.
  change (Prim2SF nan) with S754_nan. reflexivity.
Qed.

(** ** One call *)

(** What each call does, method by method. *)
Lemma invoke_trace (c : call) (s : Strategy) :
  trace (invoke c s) =
    match c with
    | Call_init => [Printed [PStr "Strategy init function!"]]
    | Call_start => trace (start s)
    | Call_stop => [Printed [PStr "Strategy stop function!"]]
    | Call_suspend => [Printed [PStr "Strategy suspend called"]]
    | Call_unsuspend => [Printed [PStr "Strategy unsuspend called"]]
    | Call_on_new_funds funds =>
        [Printed [PStr "Strategy funds function!"; PFunds funds]]
    | Call_on_order_update u =>
        [Printed [PStr "Order update status was: "; PStatus (OrderUpdate.status u)]]
    | Call_on_place_order_success i o => trace (on_place_order_success i o s)
    | Call_on_place_order_error_string _ e => [Exit ExitReason.ERROR (Some e)]
    | Call_on_cancel_order_success i o => trace (on_cancel_order_success i o s)
    | Call_on_cancel_order_error_string _ e => [Exit ExitReason.ERROR (Some e)]
    | _ => []
    end.
Proof.
  destruct c; try reflexivity.
  cbn [invoke]. rewrite on_order_update_run. reflexivity.
Qed.

Lemma start_trace_cases (s : Strategy) :
  let price := 0.0001%float in
  let amount := round_amount host_tcm 0.002%float RoundingType.ROUND in
  trace (start s) = start_prefix price \/
  trace (start s) = (start_prefix price ++ [GetMaxBuyAmount price])%list \/
  trace (start s) =
    (start_prefix price ++
     [GetMaxBuyAmount price; IsOrderValid true amount price])%list.
Proof.
  intros price amount.
  pose proof (start_run s) as R. cbv zeta in R. rewrite R. cbn [trace].
  destruct (float_le _ _); [| left; apply app_nil_r].
  destruct (float_ge _ _); right; [right | left]; reflexivity.
Qed.

(** X1: whatever the call, its arguments and the answers of the
    capability manager, the instance afterwards is the instance before,
    except after [restore_strategy_state(m)], which changes
    [strategy_state] to [m] and nothing else.  This includes a [start]
    that raises. *)
Theorem only_restore_changes_the_instance (c : call) (s : Strategy) :
  (exists m : gmap string string,
     c = Call_restore_strategy_state m /\
     self (invoke c s) =
       {| waiting_order_id := waiting_order_id s;
          waiting_cancel_order_id := waiting_cancel_order_id s;
          strategy_state := m |}) \/
  ((forall m : gmap string string, c <> Call_restore_strategy_state m) /\
   self (invoke c s) = s).
Proof.
  rewrite invoke_self.
  destruct c; try (right; split; [intros m; discriminate | reflexivity]).
  left. eexists. split; reflexivity.
Qed.

(** X2: no method of the template places or cancels an order: on any
    instance, for any call and any answers of the capability manager,
    the trace has neither a [place_limit_order] nor a [cancel_order]. *)
Theorem no_call_touches_an_order (c : call) (s : Strategy) :
  Forall (fun e => is_order_service e = false) (trace (invoke c s)).
Proof.
  rewrite invoke_trace.
  destruct c;
    try rewrite on_place_order_success_run;
    try rewrite on_cancel_order_success_run;
    try (destruct (start_trace_cases s) as [E | [E | E]]; rewrite E;
         unfold start_prefix; cbn [app]);
    cbn [trace]; try destruct (py_eq _ _); repeat constructor.
Qed.

(** X3: the template calls [exit] in two situations only.  On any
    instance, a call's trace has [exit(reason, message)] exactly when
    the call is one of the two error callbacks and the exit is
    [exit(ERROR, error)] with the callback's error string, or the call
    is [on_cancel_order_success(order_id, _)], the field
    [waiting_cancel_order_id] holds that very [order_id], and the exit
    is [exit(FINISHED_SUCCESSFULLY)] without a message. *)
Theorem exit_calls_characterised
    (c : call) (s : Strategy) (reason : ExitReason.t) (message : option string) :
  Exit reason message ∈ trace (invoke c s) <->
  (exists (id : Z) (e : string),
     (c = Call_on_place_order_error_string id e \/
      c = Call_on_cancel_order_error_string id e) /\
     reason = ExitReason.ERROR /\ message = Some e) \/
  (exists (id : Z) (o : Order),
     c = Call_on_cancel_order_success id o /\
     waiting_cancel_order_id s = PyInt id /\
     reason = ExitReason.FINISHED_SUCCESSFULLY /\ message = None).
Proof.
  rewrite invoke_trace. split.
  - intros H. destruct c;
      try (apply elem_of_nil in H; destruct H);
      try (apply list_elem_of_singleton in H; discriminate H).
    + destruct (start_trace_cases s) as [E | [E | E]]; rewrite E in H;
        unfold start_prefix in H; cbn [app] in H;
        repeat (apply elem_of_cons in H; destruct H as [H | H];
                [discriminate H |]);
        apply elem_of_nil in H; destruct H.
    + rewrite on_place_order_success_run in H. cbn [trace] in H.
      repeat (apply elem_of_cons in H; destruct H as [H | H];
              [discriminate H |]).
      apply elem_of_nil in H; destruct H.
    + apply list_elem_of_singleton in H. injection H as -> ->.
      left. exists place_order_id, error. auto.
    + rewrite on_cancel_order_success_run in H. cbn [trace] in H.
      apply elem_of_cons in H. destruct H as [H | H]; [discriminate H |].
      destruct (py_eq _ _) eqn:E; [| apply elem_of_nil in H; destruct H].
      apply elem_of_cons in H. destruct H as [H | H]; [discriminate H |].
      apply list_elem_of_singleton in H. injection H as -> ->.
      right. exists order_id, canceled_order.
      apply py_eq_int_true in E. auto.
    + apply list_elem_of_singleton in H. injection H as -> ->.
      left. exists order_id, error. auto.
  - intros [(id & e & [-> | ->] & -> & ->) | (id & o & -> & Hw & -> & ->)].
    + apply list_elem_of_singleton. reflexivity.
    + apply list_elem_of_singleton. reflexivity.
    + rewrite on_cancel_order_success_run, Hw. cbn [trace py_eq].
      rewrite Z.eqb_refl. do 2 apply list_elem_of_further.
      apply list_elem_of_here.
Qed.

(** ** Sequences of calls *)

Lemma after_app (cs1 cs2 : list call) (s : Strategy) :
  after (cs1 ++ cs2) s = after cs2 (after cs1 s).
Proof.
  revert s. induction cs1 as [| c cs1 IH]; intros s; cbn [after app].
  - reflexivity.
  - apply IH.
Qed.

(** X4: after any sequence of calls on any instance, the two
    identifiers are what they were, and [strategy_state] is the
    argument of the latest [restore_strategy_state] in the sequence, or
    what it was when the sequence has none. *)
Theorem after_calls_state (cs : list call) (s : Strategy) :
  after cs s =
    {| waiting_order_id := waiting_order_id s;
       waiting_cancel_order_id := waiting_cancel_order_id s;
       strategy_state := default (strategy_state s) (last_restored cs) |}.
Proof.
  revert s. induction cs as [| c cs IH]; intros s; cbn [after last_restored].
  - destruct s; reflexivity.
  - rewrite IH, invoke_self.
    destruct (last_restored cs) as [m |]; destruct c; reflexivity.
Qed.

(** X5: in every instance reachable from construction by calls of the
    template's methods, [waiting_order_id] is still the 0 of
    [__init__]; so a placement confirmation is taken for the awaited
    one exactly when its [place_order_id] is 0. *)
Theorem waiting_order_id_stays_zero (s : Strategy) :
  reachable s ->
  waiting_order_id s = PyInt 0 /\
  forall (place_order_id : Z) (order : Order),
    trace (on_place_order_success place_order_id order s) =
      [ Printed [PStr "Strategy place order success"];
        Printed [PStr (if (place_order_id =? 0)%Z
                       then "Had waiting order id"
                       else "Did not have waiting order id")] ].
Proof.
  intros H. destruct (reachable_ids s H) as [Ho _].
  split; [exact Ho |].
  intros place_order_id order.
  rewrite on_place_order_success_run, Ho. cbn [trace py_eq].
  rewrite (Z.eqb_sym 0 place_order_id). reflexivity.
Qed.

(** ** The two success callbacks on any instance *)

(** X6: on any instance, [on_cancel_order_success(order_id, _)] calls
    [exit(FINISHED_SUCCESSFULLY)] exactly when [waiting_cancel_order_id]
    holds the integer [order_id]; with [None] or another integer in the
    field it only prints its first line.  Either way it returns and
    leaves the instance unchanged. *)
Theorem on_cancel_order_success_exits_iff
    (order_id : Z) (canceled_order : Order) (s : Strategy) :
  (Exit ExitReason.FINISHED_SUCCESSFULLY None
     ∈ trace (on_cancel_order_success order_id canceled_order s) <->
   waiting_cancel_order_id s = PyInt order_id) /\
  (waiting_cancel_order_id s <> PyInt order_id <->
   trace (on_cancel_order_success order_id canceled_order s) =
     [ Printed [PStr "Strategy cancel order success"] ]) /\
  result (on_cancel_order_success order_id canceled_order s) = Return tt /\
  self (on_cancel_order_success order_id canceled_order s) = s.
Proof.
  rewrite on_cancel_order_success_run. cbn [trace result self].
  pose proof (py_eq_int_true (waiting_cancel_order_id s) order_id) as E.
  split; [| split; [| split; reflexivity]].
  - rewrite <- E. destruct (py_eq _ _); split.
    + intros _. reflexivity.
    + intros _. do 2 apply list_elem_of_further. apply list_elem_of_here.
    + intros H. apply list_elem_of_singleton in H. discriminate H.
    + intros H. discriminate H.
  - rewrite <- E. destruct (py_eq _ _); split.
    + intros H. destruct (H eq_refl).
    + intros H. discriminate H.
    + intros _. reflexivity.
    + intros _ H. discriminate H.
Qed.

(** X7: on any instance, [on_place_order_success(place_order_id, _)]
    prints "Had waiting order id" exactly when [waiting_order_id] holds
    the integer [place_order_id], and "Did not have waiting order id"
    otherwise; an unexpected identifier is not an error: the callback
    returns, calls no host service and leaves the instance unchanged. *)
Theorem on_place_order_success_branches
    (place_order_id : Z) (order : Order) (s : Strategy) :
  (Printed [PStr "Had waiting order id"]
     ∈ trace (on_place_order_success place_order_id order s) <->
   waiting_order_id s = PyInt place_order_id) /\
  (Printed [PStr "Did not have waiting order id"]
     ∈ trace (on_place_order_success place_order_id order s) <->
   waiting_order_id s <> PyInt place_order_id) /\
  passive s (on_place_order_success place_order_id order s).
Proof.
  rewrite on_place_order_success_run. cbn [trace].
  pose proof (py_eq_int_true (waiting_order_id s) place_order_id) as E.
  split; [| split].
  - rewrite <- E. destruct (py_eq _ _); split.
    + intros _. reflexivity.
    + intros _. apply list_elem_of_further, list_elem_of_here.
    + intros H. rewrite elem_of_cons, list_elem_of_singleton in H.
      destruct H as [H | H]; discriminate H.
    + intros H. discriminate H.
  - rewrite <- E. destruct (py_eq _ _); split.
    + intros H. rewrite elem_of_cons, list_elem_of_singleton in H.
      destruct H as [H | H]; discriminate H.
    + intros H. destruct (H eq_refl).
    + intros _ H. discriminate H.
    + intros _. apply list_elem_of_further, list_elem_of_here.
  - unfold passive. cbn [result self trace].
    split; [reflexivity |]. split; [reflexivity |]. repeat constructor.
Qed.

(** ** The order of the queries in [start] *)

(** X8: [start] asks the capability manager in a fixed order and stops
    at the first failed assertion: every run begins with the two
    prints, the rounding and the minimum query; the maximum is queried
    exactly when the minimum comparison held, and [is_order_valid] is
    called exactly when both comparisons held. *)
Theorem start_queries_in_order (s : Strategy) :
  let price := 0.0001%float in
  let amount := round_amount host_tcm 0.002%float RoundingType.ROUND in
  let min_ok := float_le (get_min_buy_amount host_tcm price) amount in
  let max_ok := float_ge (get_max_buy_amount host_tcm price) amount in
  (exists rest : list event,
     trace (start s) = (start_prefix price ++ rest)%list) /\
  (GetMaxBuyAmount price ∈ trace (start s) <-> min_ok = true) /\
  (IsOrderValid true amount price ∈ trace (start s) <->
   min_ok = true /\ max_ok = true).
Proof.
  intros price amount min_ok max_ok.
  pose proof (start_run s) as R. cbv zeta in R. rewrite R. cbn [trace]. clear R.
  subst min_ok max_ok. fold price. fold amount.
  split; [eexists; reflexivity |].
  unfold start_prefix. cbn [app].
  destruct (float_le _ _); destruct (float_ge _ _); cbn [app];
    rewrite ?elem_of_cons, ?elem_of_nil; split; split;
    try (intros _; tauto);
    try (intros H; try discriminate H; try (destruct H as [H _]; discriminate H);
         try (destruct H as [_ H]; discriminate H);
         repeat (destruct H as [H | H]; [discriminate H |]); destruct H).
Qed.

(** X9: a NaN fails the first assertion.  When the rounded amount or
    the minimum buy amount is not a number, [start] raises
    [AssertionError] right after the minimum query, before the maximum
    is asked for, whatever the manager would answer to the rest. *)
Theorem start_raises_on_nan (s : Strategy) :
  round_amount host_tcm 0.002%float RoundingType.ROUND = nan \/
  get_min_buy_amount host_tcm 0.0001%float = nan ->
  start s =
    {| result := Raise AssertionError;
       self := s;
       trace := start_prefix 0.0001%float |}.
Proof.
  intros H.
  assert (F : float_le (get_min_buy_amount host_tcm 0.0001%float)
                (round_amount host_tcm 0.002%float RoundingType.ROUND) = false).
  { destruct H as [H | H]; rewrite H; [apply float_le_nan_r | apply float_le_nan_l]. }
  pose proof (start_run s) as R. cbv zeta in R. rewrite R, F.
  cbn [andb]. rewrite app_nil_r. reflexivity.
Qed.

(** ** Saving, restoring and restarting *)

(** X10: handing the saved mapping straight back to
    [restore_strategy_state] returns, does nothing the host can
    observe, and leaves all three fields of the instance as they
    were. *)
Theorem save_then_restore_is_identity (s : Strategy) :
  (m <- save_strategy_state ;; restore_strategy_state m) s =
    {| result := Return tt; self := s; trace := [] |}.
Proof. destruct s; reflexivity. Qed.

(** X11: the instances the host can reach are exactly those whose two
    identifiers are as [__init__] set them; any mapping can be in
    [strategy_state]. *)
Theorem reachable_iff_ids_initial (s : Strategy) :
  reachable s <->
  waiting_order_id s = PyInt 0 /\ waiting_cancel_order_id s = PyNone.
Proof.
  split; [apply reachable_ids |].
  intros [Ho Hc].
  assert (E : s = self (invoke (Call_restore_strategy_state (strategy_state s))
                          __init__)).
  { destruct s as [o c m]. cbn in Ho, Hc. subst o c. reflexivity. }
  rewrite E. apply reachable_call, reachable_new.
Qed.

(** X12: a reachable instance survives a restart of the host.  If the
    host suspends the instance, takes its saved mapping, builds a new
    instance with [__init__], restores the mapping into it and
    unsuspends it, the new instance equals the old one, field by
    field. *)
Theorem restart_cycle_reproduces_instance (s : Strategy) :
  reachable s ->
  exists saved : gmap string string,
    result ((suspend ;; save_strategy_state) s) = Return saved /\
    self ((restore_strategy_state saved ;; unsuspend) __init__) = s.
Proof.
  intros H. destruct (reachable_ids s H) as [Ho Hc].
  exists (strategy_state s). split; [reflexivity |].
  destruct s as [o c m]. cbn in Ho, Hc. subst o c. reflexivity.
Qed.

End Template.

Arguments result {FundsEntry A} r.
Arguments self {FundsEntry A} r.
Arguments trace {FundsEntry A} r.
Arguments Build_run {FundsEntry A} result self trace.

(** * Concrete runs *)

(** With a manager that accepts the order, [start] returns. *)
Example start_accepting :
  start (FundsEntry:=unit) tcm_accepting __init__ =
    {| result := Return tt;
       self := __init__;
       trace := [ Printed [PStr "Strategy start function!"];
                  Printed [PStr "placing order"];
                  GetTradingCapabilityManager;
                  RoundAmount 0.002%float RoundingType.ROUND;
                  GetMinBuyAmount 0.0001%float;
                  GetMaxBuyAmount 0.0001%float;
                  IsOrderValid true 0.002%float 0.0001%float ] |}.
Proof. vm_compute. reflexivity. Qed.

(** C3 as stated fails: with a manager whose minimum and maximum admit
    the rounded amount and whose [is_order_valid] rejects the order,
    both comparisons hold and [start] raises [AssertionError] all the
    same, on its third assertion. *)
Lemma start_aborts_with_both_comparisons_true :
  ~ (result (start (FundsEntry:=unit) tcm_rejecting __init__) = Raise AssertionError <->
     float_le (get_min_buy_amount tcm_rejecting 0.0001%float)
              (round_amount tcm_rejecting 0.002%float RoundingType.ROUND) = false \/
     float_ge (get_max_buy_amount tcm_rejecting 0.0001%float)
              (round_amount tcm_rejecting 0.002%float RoundingType.ROUND) = false).
Proof.
  intros [H _].
  assert (R : result (start (FundsEntry:=unit) tcm_rejecting __init__)
              = Raise AssertionError) by (vm_compute; reflexivity).
  destruct (H R) as [E | E]; vm_compute in E; discriminate E.
Qed.

(** A fresh instance, and one that went through a restore, a start and
    a cancel confirmation, are both reachable and get the same
    configuration. *)
Lemma get_strategy_config_is_constant_witness :
  reachable (OrderBook:=unit) (Ticker:=unit) (PublicTrade:=unit)
    (FundsEntry:=unit) (Order:=unit) tcm_accepting __init__ /\
  reachable (OrderBook:=unit) (Ticker:=unit) (PublicTrade:=unit)
    (FundsEntry:=unit) (Order:=unit) tcm_accepting
    (after (OrderBook:=unit) (Ticker:=unit) (PublicTrade:=unit)
       (FundsEntry:=unit) (Order:=unit) tcm_accepting
       [ Call_restore_strategy_state {[ "k" := "v" ]};
         Call_start;
         Call_on_cancel_order_success 7 tt ] __init__) /\
  result (get_strategy_config (FundsEntry:=unit) __init__) =
  result (get_strategy_config (FundsEntry:=unit)
            (after (OrderBook:=unit) (Ticker:=unit) (PublicTrade:=unit)
               (FundsEntry:=unit) (Order:=unit) tcm_accepting
               [ Call_restore_strategy_state {[ "k" := "v" ]};
                 Call_start;
                 Call_on_cancel_order_success 7 tt ] __init__)).
Proof.
  assert (R1 : reachable (OrderBook:=unit) (Ticker:=unit) (PublicTrade:=unit)
                 (FundsEntry:=unit) (Order:=unit) tcm_accepting __init__)
    by apply reachable_new.
  split; [exact R1 |].
  split; [apply reachable_after; exact R1 |].
  apply (get_strategy_config_is_constant tcm_accepting _ _ R1).
  apply reachable_after. exact R1.
Defined.

(** After a restore and a start the instance is reachable, its
    [waiting_cancel_order_id] is [None], and a cancel confirmation for
    order 7 does not end the strategy. *)
Lemma waiting_cancel_order_id_stays_None_witness :
  reachable (OrderBook:=unit) (Ticker:=unit) (PublicTrade:=unit)
    (FundsEntry:=unit) (Order:=unit) tcm_accepting
    (after (OrderBook:=unit) (Ticker:=unit) (PublicTrade:=unit)
       (FundsEntry:=unit) (Order:=unit) tcm_accepting
       [ Call_restore_strategy_state {[ "k" := "v" ]}; Call_start ] __init__) /\
  waiting_cancel_order_id
    (after (OrderBook:=unit) (Ticker:=unit) (PublicTrade:=unit)
       (FundsEntry:=unit) (Order:=unit) tcm_accepting
       [ Call_restore_strategy_state {[ "k" := "v" ]}; Call_start ] __init__)
    = PyNone /\
  Forall (fun e => is_exit (FundsEntry:=unit) e = false)
    (trace (on_cancel_order_success (Order:=unit) 7 tt
              (after (OrderBook:=unit) (Ticker:=unit) (PublicTrade:=unit)
                 (FundsEntry:=unit) (Order:=unit) tcm_accepting
                 [ Call_restore_strategy_state {[ "k" := "v" ]}; Call_start ]
                 __init__))).
Proof.
  assert (R : reachable (OrderBook:=unit) (Ticker:=unit) (PublicTrade:=unit)
                (FundsEntry:=unit) (Order:=unit) tcm_accepting
                (after (OrderBook:=unit) (Ticker:=unit) (PublicTrade:=unit)
       (FundsEntry:=unit) (Order:=unit) tcm_accepting
                   [ Call_restore_strategy_state {[ "k" := "v" ]}; Call_start ]
                   __init__))
    by (apply reachable_after; apply reachable_new).
  split; [exact R |].
  destruct (waiting_cancel_order_id_stays_None tcm_accepting _ R) as [Hc Hs].
  split; [exact Hc |]. exact (proj2 (Hs 7%Z tt)).
Defined.

(** After an order update and a stop the instance is reachable, still
    waits for identifier 0, and takes a confirmation for 3 as
    foreign. *)
Lemma waiting_order_id_stays_zero_witness :
  reachable (OrderBook:=unit) (Ticker:=unit) (PublicTrade:=unit)
    (FundsEntry:=unit) (Order:=unit) tcm_rejecting
    (after (OrderBook:=unit) (Ticker:=unit) (PublicTrade:=unit)
       (FundsEntry:=unit) (Order:=unit) tcm_rejecting
       [ Call_on_order_update {| OrderUpdate.status := OrderUpdate.FILLED |};
         Call_stop ] __init__) /\
  trace (on_place_order_success (FundsEntry:=unit) (Order:=unit) 3 tt
           (after (OrderBook:=unit) (Ticker:=unit) (PublicTrade:=unit)
              (FundsEntry:=unit) (Order:=unit) tcm_rejecting
              [ Call_on_order_update {| OrderUpdate.status := OrderUpdate.FILLED |};
                Call_stop ] __init__)) =
    [ Printed [PStr "Strategy place order success"];
      Printed [PStr "Did not have waiting order id"] ].
Proof.
  assert (R : reachable (OrderBook:=unit) (Ticker:=unit) (PublicTrade:=unit)
                (FundsEntry:=unit) (Order:=unit) tcm_rejecting
                (after (OrderBook:=unit) (Ticker:=unit) (PublicTrade:=unit)
                   (FundsEntry:=unit) (Order:=unit) tcm_rejecting
                   [ Call_on_order_update
                       {| OrderUpdate.status := OrderUpdate.FILLED |};
                     Call_stop ] __init__))
    by (apply reachable_after; apply reachable_new).
  split; [exact R |].
  exact (proj2 (waiting_order_id_stays_zero tcm_rejecting _ R) 3%Z tt).
Defined.

(** With a manager whose rounding yields NaN, [start] raises after the
    minimum query. *)
Lemma start_raises_on_nan_witness :
  (round_amount tcm_nan 0.002%float RoundingType.ROUND = nan \/
   get_min_buy_amount tcm_nan 0.0001%float = nan) /\
  start (FundsEntry:=unit) tcm_nan __init__ =
    {| result := Raise AssertionError;
       self := __init__;
       trace := start_prefix 0.0001%float |}.
Proof.
  assert (H : round_amount tcm_nan 0.002%float RoundingType.ROUND = nan \/
              get_min_buy_amount tcm_nan 0.0001%float = nan)
    by (left; reflexivity).
  split; [exact H |].
  exact (start_raises_on_nan (FundsEntry:=unit) tcm_nan __init__ H).
Defined.

(** An instance that restored a mapping and ran a failing [start] comes
    back from a restart as it was. *)
Lemma restart_cycle_reproduces_instance_witness :
  reachable (OrderBook:=unit) (Ticker:=unit) (PublicTrade:=unit)
    (FundsEntry:=unit) (Order:=unit) tcm_rejecting
    (after (OrderBook:=unit) (Ticker:=unit) (PublicTrade:=unit)
       (FundsEntry:=unit) (Order:=unit) tcm_rejecting
       [ Call_restore_strategy_state {[ "k" := "v" ]}; Call_start ] __init__) /\
  exists saved : gmap string string,
    result (bind (suspend (FundsEntry:=unit)) (fun _ => save_strategy_state)
              (after (OrderBook:=unit) (Ticker:=unit) (PublicTrade:=unit)
                 (FundsEntry:=unit) (Order:=unit) tcm_rejecting
                 [ Call_restore_strategy_state {[ "k" := "v" ]}; Call_start ]
                 __init__)) = Return saved /\
    self (bind (restore_strategy_state (FundsEntry:=unit) saved)
            (fun _ => unsuspend) __init__) =
      after (OrderBook:=unit) (Ticker:=unit) (PublicTrade:=unit)
        (FundsEntry:=unit) (Order:=unit) tcm_rejecting
        [ Call_restore_strategy_state {[ "k" := "v" ]}; Call_start ] __init__.
Proof.
  assert (R : reachable (OrderBook:=unit) (Ticker:=unit) (PublicTrade:=unit)
                (FundsEntry:=unit) (Order:=unit) tcm_rejecting
                (after (OrderBook:=unit) (Ticker:=unit) (PublicTrade:=unit)
                   (FundsEntry:=unit) (Order:=unit) tcm_rejecting
                   [ Call_restore_strategy_state {[ "k" := "v" ]}; Call_start ]
                   __init__))
    by (apply reachable_after; apply reachable_new).
  split; [exact R |].
  exact (restart_cycle_reproduces_instance tcm_rejecting _ R).
Defined.
